(** * pywgrib2_xr: the geolocation bridge (src/pywgrib2_xr/geolocation.c)

    The two entry points [ll2ij] and [sec3latlon] delegate to the wgrib2
    engine behind a [setjmp] recovery target.  The embedding below keeps
    the C control flow statement by statement: the process-wide variables
    [output_order] and [fatal_err] are fields of an explicit state, the
    engine functions are the fields of a record of state transformers, and
    every execution carries the log of what it did. *)

From Stdlib Require Import ZArith PrimFloat.
From stdpp Require Import base decidable numbers list gmap.

Local Open Scope Z_scope.

(** ** Data *)

(** Modelled from the spec: [enum output_order_type] is declared in
    wgrib2/wgrib2.h, which is not among the sources; the bridge only ever
    names the "west-to-east, south-to-north" value [wesn].  The other two
    constructors stand for the remaining orderings of the engine. *)
Inductive output_order_type : Set := raw | wesn | wens.

#[global] Instance output_order_type_eq_dec : EqDecision output_order_type.
Proof. solve_decision. Defined.

(** C [int] statuses.  The bridge compares them with zero and hands them on;
    it never computes with them, so no wrap-around is involved. *)
Definition int := Z.

(** C [double]. *)
Definition double := float.

(** Addresses; [0] is [NULL]. *)
Definition ptr := Z.

(** What an address can hold: an array of pointers (a [double *] variable is
    an array of one, [unsigned char **sec] an array of section pointers), an
    array of [double], or the bytes of a GRIB section. *)
Inductive object : Type :=
| Pointers (ps : list ptr)
| Doubles (ds : list double)
| Bytes (bs : list Z).

Definition memory := gmap ptr object.

(** [*pp] for [double **pp], followed to the array it points to. *)
Definition deref_doubles (m : memory) (pp : ptr) : option (list double) :=
  match m !! pp with
  | Some (Pointers (a :: _)) =>
      match m !! a with
      | Some (Doubles ds) => Some ds
      | _ => None
      end
  | _ => None
  end.

(** The array behind a [double *p]. *)
Definition load_doubles (m : memory) (p : ptr) : option (list double) :=
  match m !! p with
  | Some (Doubles ds) => Some ds
  | _ => None
  end.

(** Activation records of the bridge's entry points. *)
Definition frame := nat.

(** [jmp_buf]: the calling context stored by the last [setjmp], if any. *)
Definition jmp_buf := option frame.

Record state : Type := mkState {
  output_order : output_order_type;   (* extern enum output_order_type output_order; *)
  fatal_err : jmp_buf;                (* extern jmp_buf fatal_err; *)
  stack : list frame;                 (* live activation records, innermost first *)
  fresh : frame;                      (* next activation record *)
  mem : memory                        (* everything reachable through pointers *)
}.

Definition set_output_order (o : output_order_type) (s : state) : state :=
  mkState o (fatal_err s) (stack s) (fresh s) (mem s).
Definition set_fatal_err (j : jmp_buf) (s : state) : state :=
  mkState (output_order s) j (stack s) (fresh s) (mem s).
Definition set_mem (m : memory) (s : state) : state :=
  mkState (output_order s) (fatal_err s) (stack s) (fresh s) m.
Definition push_frame (s : state) : state :=
  mkState (output_order s) (fatal_err s) (fresh s :: stack s) (S (fresh s)) (mem s).
Definition pop_frame (s : state) : state :=
  mkState (output_order s) (fatal_err s) (tail (stack s)) (fresh s) (mem s).

(** The recovery trampoline is armed when [fatal_err] holds the context of
    an activation record that is still live; a [jmp_buf] whose function has
    returned is not a target any more. *)
Definition armed (s : state) : bool :=
  match fatal_err s with
  | Some f => bool_decide (f ∈ stack s)
  | None => false
  end.

Definition idle (s : state) : bool := negb (armed s).

(** ** Executions *)

(** The wgrib2 functions the bridge names, with the arguments it passes. *)
Inductive callee : Type :=
| to_gctpc_ll2xy_init (sec grid_lon grid_lat : ptr)
| to_gctpc_ll2xy (n : int) (lon lat x y : ptr)
| to_gctpc_get_latlon (sec lon lat : ptr)
| to_get_latlon (sec lon lat : ptr).

Inductive event : Type :=
| EvAssign (o : output_order_type)
    (* output_order = o; *)
| EvSetjmp (r : int)
    (* setjmp(fatal_err) returned r: 0 when it stored the context, the
       longjmp value when control came back to it *)
| EvCall (c : callee) (o : output_order_type) (a : bool)
    (* control entered the engine, which finds output_order = o and the
       trampoline armed (a = true) or not *)
| EvLongjmp (v : int).
    (* the engine gave up: longjmp(fatal_err, v) *)

Inductive outcome (A : Type) : Type :=
| Done (a : A)                    (* returned a *)
| Jumping (f : frame) (v : int)   (* unwinding to the setjmp of record f *)
| Undefined.                      (* longjmp through a dead or empty jmp_buf *)
Arguments Done {A} a.
Arguments Jumping {A} f v.
Arguments Undefined {A}.

Record run (A : Type) : Type := Run {
  result : outcome A;
  final : state;
  log : list event
}.
Arguments Run {A} result final log.
Arguments result {A} r.
Arguments final {A} r.
Arguments log {A} r.

Definition M (A : Type) : Type := state → run A.

#[global] Instance M_ret : MRet M := λ A a s, Run (Done a) s [].

#[global] Instance M_bind : MBind M := λ A B k m s,
  let r := m s in
  match result r with
  | Done a => let r' := k a (final r) in
              Run (result r') (final r') (log r ++ log r')
  | Jumping f v => Run (Jumping f v) (final r) (log r)
  | Undefined => Run Undefined (final r) (log r)
  end.

(** [output_order = o;] *)
Definition assign_output_order (o : output_order_type) : M unit :=
  λ s, Run (Done tt) (set_output_order o s) [EvAssign o].

(** What [setjmp] returns when [longjmp (env, v)] comes back to it. *)
Definition longjmp_value (v : int) : int := if v =? 0 then 1 else v.

(** [setjmp(fatal_err)] and the code [k] that follows it in the same
    function.  The context of the running activation record is stored and
    [k 0] runs; when a [longjmp] to that record arrives, [k] runs again from
    the state the jump left behind, now with the non-zero value.  (Both
    entry points answer a non-zero value with a plain [return], so one
    resumption is all there can be.) *)
Definition setjmp_fatal_err {A} (k : int → M A) : M A := λ s,
  match stack s with
  | [] => Run Undefined s []
  | f :: _ =>
      let r0 := k 0 (set_fatal_err (Some f) s) in
      match result r0 with
      | Jumping f' v =>
          if decide (f' = f) then
            let r1 := k (longjmp_value v) (final r0) in
            Run (result r1) (final r1)
                (EvSetjmp 0 :: log r0 ++ EvSetjmp (longjmp_value v) :: log r1)
          else Run (result r0) (final r0) (EvSetjmp 0 :: log r0)
      | _ => Run (result r0) (final r0) (EvSetjmp 0 :: log r0)
      end
  end.

(** A function body: its activation record lives from entry to exit,
    whichever way the body is left. *)
Definition function {A} (body : M A) : M A := λ s,
  let r := body (push_frame s) in
  Run (result r) (pop_frame (final r)) (log r).

(** ** The engine *)

(** An engine function either returns a status or calls the engine's
    fatal-error routine, which ends in [longjmp (fatal_err, v)]. *)
Inductive reply : Type :=
| Returns (i : int)
| Raises (v : int).

(** Modelled from the spec: the four wgrib2 functions are external to the
    sources.  They work on the memory behind the pointers they are given
    (and on the engine's own data, which lives in the same memory); the
    orientation flag is "read only by the external engines", so it is an
    input here and not part of what they give back. *)
Definition extern : Type := output_order_type → memory → reply * memory.

Record engine : Type := {
  gctpc_ll2xy_init : ptr → ptr → ptr → extern;
    (* int gctpc_ll2xy_init(unsigned char **sec, double *grid_lon, double *grid_lat) *)
  gctpc_ll2xy : int → ptr → ptr → ptr → ptr → extern;
    (* int gctpc_ll2xy(int n, double *lon, double *lat, double *x, double *y) *)
  gctpc_get_latlon : ptr → ptr → ptr → extern;
    (* int gctpc_get_latlon(unsigned char **sec, double **lon, double **lat) *)
  get_latlon : ptr → ptr → ptr → extern
    (* int get_latlon(unsigned char **sec, double **lon, double **lat) *)
}.

Definition invoke (E : engine) (c : callee) : extern :=
  match c with
  | to_gctpc_ll2xy_init sec grid_lon grid_lat => gctpc_ll2xy_init E sec grid_lon grid_lat
  | to_gctpc_ll2xy n lon lat x y => gctpc_ll2xy E n lon lat x y
  | to_gctpc_get_latlon sec lon lat => gctpc_get_latlon E sec lon lat
  | to_get_latlon sec lon lat => get_latlon E sec lon lat
  end.

(** A call into the engine.  A fatal error inside it jumps through
    [fatal_err] as the engine finds it. *)
Definition call (E : engine) (c : callee) : M int := λ s,
  let '(r, m) := invoke E c (output_order s) (mem s) in
  let here := EvCall c (output_order s) (armed s) in
  match r with
  | Returns i => Run (Done i) (set_mem m s) [here]
  | Raises v =>
      match fatal_err s with
      | Some f =>
          if bool_decide (f ∈ stack s)
          then Run (Jumping f v) (set_mem m s) [here; EvLongjmp v]
          else Run Undefined (set_mem m s) [here; EvLongjmp v]
      | None => Run Undefined (set_mem m s) [here; EvLongjmp v]
      end
  end.

(** ** The entry points *)

Definition nonzero (i : int) : bool := negb (i =? 0).

Section Bridge.

Variable E : engine.

(** [int ll2ij(unsigned char **sec, double *grid_lon, double *grid_lat,
               int npts, double *lon, double *lat, double *x, double *y)] *)
Definition ll2ij (sec grid_lon grid_lat : ptr) (npts : int)
                 (lon lat x y : ptr) : M int :=
  function (
    assign_output_order wesn ;;
    setjmp_fatal_err (λ r,
      if nonzero r then mret 9
      else
        i ← call E (to_gctpc_ll2xy_init sec grid_lon grid_lat) ;
        if nonzero i then mret i
        else
          i ← call E (to_gctpc_ll2xy npts lon lat x y) ;
          mret i)).

(** [int sec3latlon(unsigned char **sec, double **lon, double **lat)] *)
Definition sec3latlon (sec lon lat : ptr) : M int :=
  function (
    assign_output_order wesn ;;
    setjmp_fatal_err (λ r,
      if nonzero r then mret 9
      else
        i ← call E (to_gctpc_get_latlon sec lon lat) ;
        i ← (if nonzero i then call E (to_get_latlon sec lon lat) else mret i) ;
        mret i)).

End Bridge.

(** A call of either entry point, with its arguments. *)
Inductive entry_point : Type :=
| ll2ij_with (sec grid_lon grid_lat : ptr) (npts : int) (lon lat x y : ptr)
| sec3latlon_with (sec lon lat : ptr).

Definition enter (E : engine) (c : entry_point) : M int :=
  match c with
  | ll2ij_with sec grid_lon grid_lat npts lon lat x y =>
      ll2ij E sec grid_lon grid_lat npts lon lat x y
  | sec3latlon_with sec lon lat => sec3latlon E sec lon lat
  end.

(** ** Reading a log *)

Inductive symbol : Set :=
| sym_gctpc_ll2xy_init | sym_gctpc_ll2xy | sym_gctpc_get_latlon | sym_get_latlon.

#[global] Instance symbol_eq_dec : EqDecision symbol.
Proof. solve_decision. Defined.

Definition symbol_of (c : callee) : symbol :=
  match c with
  | to_gctpc_ll2xy_init _ _ _ => sym_gctpc_ll2xy_init
  | to_gctpc_ll2xy _ _ _ _ _ => sym_gctpc_ll2xy
  | to_gctpc_get_latlon _ _ _ => sym_gctpc_get_latlon
  | to_get_latlon _ _ _ => sym_get_latlon
  end.

(** The engine calls of a log, in the order they were made. *)
Fixpoint calls (l : list event) : list callee :=
  match l with
  | [] => []
  | EvCall c _ _ :: l' => c :: calls l'
  | _ :: l' => calls l'
  end.

Definition times_called (f : symbol) (l : list event) : nat :=
  length (filter (λ c, symbol_of c = f) (calls l)).

(** The value of [output_order] each engine call found. *)
Fixpoint orders_seen (l : list event) : list output_order_type :=
  match l with
  | [] => []
  | EvCall _ o _ :: l' => o :: orders_seen l'
  | _ :: l' => orders_seen l'
  end.

(** Whether each engine call found the trampoline armed. *)
Fixpoint trampoline_seen (l : list event) : list bool :=
  match l with
  | [] => []
  | EvCall _ _ a :: l' => a :: trampoline_seen l'
  | _ :: l' => trampoline_seen l'
  end.

(** Did an engine call end in [longjmp]? *)
Fixpoint fatal_raised (l : list event) : bool :=
  match l with
  | [] => false
  | EvLongjmp _ :: _ => true
  | _ :: l' => fatal_raised l'
  end.

(** Activation records are handed out in increasing order, so a record that
    is live is older than the next one. *)
Definition wf_state (s : state) : Prop :=
  Forall (λ f, (f < fresh s)%nat) (stack s).

(** ** Stub engines and a start state *)

(** An engine function that answers [r] and touches nothing. *)
Definition always (r : reply) : extern := λ _ m, (r, m).

(** Stores the array [ds] at address [a] and makes the [double *] variable
    at [pp] point to it. *)
Definition emit (pp a : ptr) (ds : list double) (m : memory) : memory :=
  <[pp := Pointers [a]]> (<[a := Doubles ds]> m).

(** Grid [G]: the section table at 16 with the grid definition section at
    24; the caller's [double *lon, *lat] variables at 32 and 40, both
    [NULL]. *)
Definition G_sec : ptr := 16.
Definition G_lon : ptr := 32.
Definition G_lat : ptr := 40.
Definition G_memory : memory :=
  <[G_sec := Pointers [0; 0; 0; 24]]>
    (<[24 := Bytes [0; 0; 0; 72; 3; 0; 0; 0; 0; 4; 0; 0; 0; 0]]>
       (<[G_lon := Pointers [0]]> (<[G_lat := Pointers [0]]> ∅))).

(** The process before the first call into the bridge: some other
    orientation selected, nothing ever stored in [fatal_err]. *)
Definition boot (m : memory) : state := mkState raw None [] 0%nat m.

(** The primary extractor gives up on [G] with status 5 after it has
    already stored a longitude array; the fallback stores [[10.0]] and
    [[20.0]] and succeeds.  The projection half is not used by the
    extractor scenarios. *)
Definition stub_primary_5 : ptr → ptr → ptr → extern :=
  λ sec lon lat _ m, (Returns 5, emit lon 64 [1.5%float] m).
Definition stub_fallback_ok : ptr → ptr → ptr → extern :=
  λ sec lon lat _ m,
    (Returns 0, emit lat 88 [20.0%float] (emit lon 80 [10.0%float] m)).

Definition stub_G : engine := {|
  gctpc_ll2xy_init := λ _ _ _, always (Returns 0);
  gctpc_ll2xy := λ _ _ _ _ _, always (Returns 0);
  gctpc_get_latlon := stub_primary_5;
  get_latlon := stub_fallback_ok
|}.

(** An engine made of four fixed answers. *)
Definition answering (init map primary fallback : reply) : engine := {|
  gctpc_ll2xy_init := λ _ _ _, always init;
  gctpc_ll2xy := λ _ _ _ _ _, always map;
  gctpc_get_latlon := λ _ _ _, always primary;
  get_latlon := λ _ _ _, always fallback
|}.

(** An engine whose every function hits a fatal error, as wgrib2's
    [fatal_error] does with [longjmp(fatal_err, 1)]. *)
Definition doomed : engine :=
  answering (Raises 1) (Raises 1) (Raises 1) (Raises 1).

(** The primary extractor succeeds on [G]; a fallback that is entered all the
    same ends the run with a fatal error. *)
Definition stub_primary_ok : engine := {|
  gctpc_ll2xy_init := λ _ _ _, always (Returns 0);
  gctpc_ll2xy := λ _ _ _ _ _, always (Returns 0);
  gctpc_get_latlon := stub_fallback_ok;
  get_latlon := λ _ _ _, always (Raises 1)
|}.

(** ** Shapes of a run *)

(** The state an entry point leaves behind when it was entered in [s] and the
    engine left the memory [m]: the flag is [wesn], the activation record is
    gone, and [fatal_err] still holds the context that record stored. *)
Definition returned (s : state) (m : memory) : state :=
  mkState wesn (Some (fresh s)) (stack s) (S (fresh s)) m.

(** Engine calls that found [output_order = wesn] and the trampoline armed. *)
Definition calls_made (cs : list callee) : list event :=
  (λ c, EvCall c wesn true) <$> cs.

(** Calls made one after the other, each paired with the state it started
    from. *)
Fixpoint session (E : engine) (cs : list entry_point) (s : state)
  : list (state * run int) :=
  match cs with
  | [] => []
  | c :: cs' => let r := enter E c s in (s, r) :: session E cs' (final r)
  end.

(** A run either comes back from its last engine call, or is cut short by a
    [longjmp] out of it and answers 9. *)
Inductive shape (s : state) (r : run int) : Prop :=
| Straight (i : int) (m : memory) (c : callee) (cs : list callee) :
    r = Run (Done i) (returned s m)
            (EvAssign wesn :: EvSetjmp 0 :: calls_made (c :: cs)) →
    shape s r
| Recovered (v : int) (m : memory) (c : callee) (cs : list callee) :
    r = Run (Done 9) (returned s m)
            (EvAssign wesn :: EvSetjmp 0 ::
             calls_made (c :: cs) ++ [EvLongjmp v; EvSetjmp (longjmp_value v)]) →
    shape s r.

(** The last engine function an entry point calls comes back with the plain
    status 9: the initializer or the point mapping for [ll2ij], the fallback
    extractor for [sec3latlon]. *)
Definition engine_answers_9 (E : engine) (c : entry_point) (s : state) : Prop :=
  match c with
  | ll2ij_with sec grid_lon grid_lat npts lon lat x y =>
      (∃ m1, gctpc_ll2xy_init E sec grid_lon grid_lat wesn (mem s) = (Returns 9, m1))
      ∨ (∃ m1 m2,
           gctpc_ll2xy_init E sec grid_lon grid_lat wesn (mem s) = (Returns 0, m1)
           ∧ gctpc_ll2xy E npts lon lat x y wesn m1 = (Returns 9, m2))
  | sec3latlon_with sec lon lat =>
      ∃ k m1 m2,
        gctpc_get_latlon E sec lon lat wesn (mem s) = (Returns k, m1)
        ∧ k ≠ 0
        ∧ get_latlon E sec lon lat wesn m1 = (Returns 9, m2)
  end.

(** An engine that writes nothing: every function hands the memory back as
    it got it. *)
Definition leaves_memory (E : engine) : Prop :=
  ∀ c o m, (invoke E c o m).2 = m.

(** A process that has been through the bridge before and has since selected
    another orientation: [fatal_err] holds the context of a record long
    gone. *)
Definition later (m : memory) : state := mkState wens (Some 3%nat) [] 7%nat m.

(** The primary extractor stores a longitude array and gives up with status
    5; the fallback then hits a fatal error. *)
Definition gives_up_late : engine := {|
  gctpc_ll2xy_init := λ _ _ _, always (Returns 0);
  gctpc_ll2xy := λ _ _ _ _ _, always (Returns 0);
  gctpc_get_latlon := stub_primary_5;
  get_latlon := λ _ _ _, always (Raises 1)
|}.



(** A caller of [ll2ij] on grid [G]: one reference point behind 48 and 56,
    one input point behind 64 and 72, and the result arrays behind 80 and
    88, zeroed. *)
Definition G_points : memory :=
  <[48 := Doubles [0.0%float]]>
    (<[56 := Doubles [0.0%float]]>
       (<[64 := Doubles [1.0%float]]>
          (<[72 := Doubles [1.0%float]]>
             (<[80 := Doubles [0.0%float]]>
                (<[88 := Doubles [0.0%float]]> G_memory))))).

(** The initializer succeeds; the point mapping has stored an [x] value
    when it hits a fatal error. *)
Definition dies_mapping : engine := {|
  gctpc_ll2xy_init := λ _ _ _, always (Returns 0);
  gctpc_ll2xy := λ n lon lat x y _ m,
    (Raises 1, <[x := Doubles [0.5%float]]> m);
  gctpc_get_latlon := λ _ _ _, always (Returns 0);
  get_latlon := λ _ _ _, always (Returns 0)
|}.

(** * Properties *)

(** ** The combinators *)

Section Combinators.

Context {A B : Type}.

Lemma bind_done (m : M A) (k : A → M B) s a s1 l r s2 l' :
  m s = Run (Done a) s1 l → k a s1 = Run r s2 l' →
  (m ≫= k) s = Run r s2 (l ++ l').
Proof.
  intros Hm Hk. unfold mbind, M_bind. rewrite Hm. cbn. now rewrite Hk.
Qed.

Lemma bind_jumping (m : M A) (k : A → M B) s f v s1 l :
  m s = Run (Jumping f v) s1 l → (m ≫= k) s = Run (Jumping f v) s1 l.
Proof. intros Hm. unfold mbind, M_bind. now rewrite Hm. Qed.

Lemma function_run (body : M A) s r s1 l :
  body (push_frame s) = Run r s1 l →
  function body s = Run r (pop_frame s1) l.
Proof. intros Hb. unfold function. now rewrite Hb. Qed.

Lemma setjmp_direct (k : int → M A) s f st a s1 l :
  stack s = f :: st →
  k 0 (set_fatal_err (Some f) s) = Run (Done a) s1 l →
  setjmp_fatal_err k s = Run (Done a) s1 (EvSetjmp 0 :: l).
Proof.
  intros Hst Hk. unfold setjmp_fatal_err. now rewrite Hst, Hk.
Qed.

Lemma setjmp_resumed (k : int → M A) s f st v s1 l r s2 l' :
  stack s = f :: st →
  k 0 (set_fatal_err (Some f) s) = Run (Jumping f v) s1 l →
  k (longjmp_value v) s1 = Run r s2 l' →
  setjmp_fatal_err k s =
    Run r s2 (EvSetjmp 0 :: l ++ EvSetjmp (longjmp_value v) :: l').
Proof.
  intros Hst Hk Hr. unfold setjmp_fatal_err. rewrite Hst, Hk. cbn.
  rewrite decide_True by reflexivity. now rewrite Hr.
Qed.

End Combinators.

Lemma longjmp_value_nonzero v : nonzero (longjmp_value v) = true.
Proof.
  unfold nonzero, longjmp_value.
  destruct (v =? 0) eqn:Hv; [reflexivity | now rewrite Hv].
Qed.

Lemma nonzero_true i : i ≠ 0 → nonzero i = true.
Proof. intros Hi. unfold nonzero. now apply negb_true_iff, Z.eqb_neq. Qed.

Lemma call_returns E c s i m :
  invoke E c (output_order s) (mem s) = (Returns i, m) →
  call E c s = Run (Done i) (set_mem m s) [EvCall c (output_order s) (armed s)].
Proof. intros H. unfold call. now rewrite H. Qed.

Lemma call_raises E c s f v m :
  invoke E c (output_order s) (mem s) = (Raises v, m) →
  fatal_err s = Some f → f ∈ stack s →
  call E c s =
    Run (Jumping f v) (set_mem m s) [EvCall c (output_order s) true; EvLongjmp v].
Proof.
  intros H Hf Hin. unfold call, armed. rewrite H, Hf.
  now rewrite (bool_decide_eq_true_2 _ Hin).
Qed.

(** ** The four ways through [ll2ij] *)

Section Ways_ll2ij.

Variable E : engine.
Variables (sec grid_lon grid_lat : ptr) (npts : int) (lon lat x y : ptr).
Variable s : state.

Let init := to_gctpc_ll2xy_init sec grid_lon grid_lat.
Let map := to_gctpc_ll2xy npts lon lat x y.

(* a call made right behind the setjmp finds the trampoline armed *)
Local Ltac engine_returns H :=
  etrans; [ eapply call_returns; exact H | ];
  unfold armed; cbn; rewrite bool_decide_eq_true_2 by left; reflexivity.
Local Ltac engine_raises H :=
  eapply call_raises; [ exact H | reflexivity | left ].

Lemma ll2ij_init_raises v m1 :
  gctpc_ll2xy_init E sec grid_lon grid_lat wesn (mem s) = (Raises v, m1) →
  ll2ij E sec grid_lon grid_lat npts lon lat x y s =
    Run (Done 9) (returned s m1)
        (EvAssign wesn :: EvSetjmp 0 ::
         calls_made [init] ++ [EvLongjmp v; EvSetjmp (longjmp_value v)]).
Proof.
  intros H. unfold ll2ij. etrans.
  { apply function_run. eapply bind_done; [reflexivity|].
    eapply setjmp_resumed; [reflexivity | | ].
    - cbn [nonzero Z.eqb negb]. eapply bind_jumping. engine_raises H.
    - rewrite longjmp_value_nonzero. reflexivity. }
  reflexivity.
Qed.

Lemma ll2ij_init_fails k m1 :
  gctpc_ll2xy_init E sec grid_lon grid_lat wesn (mem s) = (Returns k, m1) →
  k ≠ 0 →
  ll2ij E sec grid_lon grid_lat npts lon lat x y s =
    Run (Done k) (returned s m1)
        (EvAssign wesn :: EvSetjmp 0 :: calls_made [init]).
Proof.
  intros H Hk. unfold ll2ij. etrans.
  { apply function_run. eapply bind_done; [reflexivity|].
    eapply setjmp_direct; [reflexivity|].
    cbn [nonzero Z.eqb negb]. eapply bind_done; [engine_returns H|].
    rewrite (nonzero_true k Hk). reflexivity. }
  reflexivity.
Qed.

Lemma ll2ij_mapped m1 r m2 :
  gctpc_ll2xy_init E sec grid_lon grid_lat wesn (mem s) = (Returns 0, m1) →
  gctpc_ll2xy E npts lon lat x y wesn m1 = (Returns r, m2) →
  ll2ij E sec grid_lon grid_lat npts lon lat x y s =
    Run (Done r) (returned s m2)
        (EvAssign wesn :: EvSetjmp 0 :: calls_made [init; map]).
Proof.
  intros H1 H2. unfold ll2ij. etrans.
  { apply function_run. eapply bind_done; [reflexivity|].
    eapply setjmp_direct; [reflexivity|].
    cbn [nonzero Z.eqb negb]. eapply bind_done; [engine_returns H1|].
    cbn [nonzero Z.eqb negb].
    eapply bind_done; [engine_returns H2 | reflexivity]. }
  reflexivity.
Qed.

Lemma ll2ij_map_raises m1 v m2 :
  gctpc_ll2xy_init E sec grid_lon grid_lat wesn (mem s) = (Returns 0, m1) →
  gctpc_ll2xy E npts lon lat x y wesn m1 = (Raises v, m2) →
  ll2ij E sec grid_lon grid_lat npts lon lat x y s =
    Run (Done 9) (returned s m2)
        (EvAssign wesn :: EvSetjmp 0 ::
         calls_made [init; map] ++ [EvLongjmp v; EvSetjmp (longjmp_value v)]).
Proof.
  intros H1 H2. unfold ll2ij. etrans.
  { apply function_run. eapply bind_done; [reflexivity|].
    eapply setjmp_resumed; [reflexivity | | ].
    - cbn [nonzero Z.eqb negb]. eapply bind_done; [engine_returns H1|].
      cbn [nonzero Z.eqb negb]. eapply bind_jumping. engine_raises H2.
    - rewrite longjmp_value_nonzero. reflexivity. }
  reflexivity.
Qed.

End Ways_ll2ij.

(** ** The four ways through [sec3latlon] *)

Section Ways_sec3latlon.

Variable E : engine.
Variables sec lon lat : ptr.
Variable s : state.

Let primary := to_gctpc_get_latlon sec lon lat.
Let fallback := to_get_latlon sec lon lat.

Local Ltac engine_returns H :=
  etrans; [ eapply call_returns; exact H | ];
  unfold armed; cbn; rewrite bool_decide_eq_true_2 by left; reflexivity.
Local Ltac engine_raises H :=
  eapply call_raises; [ exact H | reflexivity | left ].

Lemma sec3latlon_primary_raises v m1 :
  gctpc_get_latlon E sec lon lat wesn (mem s) = (Raises v, m1) →
  sec3latlon E sec lon lat s =
    Run (Done 9) (returned s m1)
        (EvAssign wesn :: EvSetjmp 0 ::
         calls_made [primary] ++ [EvLongjmp v; EvSetjmp (longjmp_value v)]).
Proof.
  intros H. unfold sec3latlon. etrans.
  { apply function_run. eapply bind_done; [reflexivity|].
    eapply setjmp_resumed; [reflexivity | | ].
    - cbn [nonzero Z.eqb negb]. eapply bind_jumping. engine_raises H.
    - rewrite longjmp_value_nonzero. reflexivity. }
  reflexivity.
Qed.

Lemma sec3latlon_primary_done m1 :
  gctpc_get_latlon E sec lon lat wesn (mem s) = (Returns 0, m1) →
  sec3latlon E sec lon lat s =
    Run (Done 0) (returned s m1)
        (EvAssign wesn :: EvSetjmp 0 :: calls_made [primary]).
Proof.
  intros H. unfold sec3latlon. etrans.
  { apply function_run. eapply bind_done; [reflexivity|].
    eapply setjmp_direct; [reflexivity|].
    cbn [nonzero Z.eqb negb]. eapply bind_done; [engine_returns H|].
    cbn [nonzero Z.eqb negb]. eapply bind_done; reflexivity. }
  reflexivity.
Qed.

Lemma sec3latlon_fallback_done k m1 i m2 :
  gctpc_get_latlon E sec lon lat wesn (mem s) = (Returns k, m1) →
  k ≠ 0 →
  get_latlon E sec lon lat wesn m1 = (Returns i, m2) →
  sec3latlon E sec lon lat s =
    Run (Done i) (returned s m2)
        (EvAssign wesn :: EvSetjmp 0 :: calls_made [primary; fallback]).
Proof.
  intros H1 Hk H2. unfold sec3latlon. etrans.
  { apply function_run. eapply bind_done; [reflexivity|].
    eapply setjmp_direct; [reflexivity|].
    cbn [nonzero Z.eqb negb]. eapply bind_done; [engine_returns H1|].
    rewrite (nonzero_true k Hk).
    eapply bind_done; [engine_returns H2 | reflexivity]. }
  reflexivity.
Qed.

Lemma sec3latlon_fallback_raises k m1 v m2 :
  gctpc_get_latlon E sec lon lat wesn (mem s) = (Returns k, m1) →
  k ≠ 0 →
  get_latlon E sec lon lat wesn m1 = (Raises v, m2) →
  sec3latlon E sec lon lat s =
    Run (Done 9) (returned s m2)
        (EvAssign wesn :: EvSetjmp 0 ::
         calls_made [primary; fallback]
           ++ [EvLongjmp v; EvSetjmp (longjmp_value v)]).
Proof.
  intros H1 Hk H2. unfold sec3latlon. etrans.
  { apply function_run. eapply bind_done; [reflexivity|].
    eapply setjmp_resumed; [reflexivity | | ].
    - cbn [nonzero Z.eqb negb]. eapply bind_done; [engine_returns H1|].
      rewrite (nonzero_true k Hk). eapply bind_jumping. engine_raises H2.
    - rewrite longjmp_value_nonzero. reflexivity. }
  reflexivity.
Qed.

End Ways_sec3latlon.

(** ** Every run has one of two shapes *)

Lemma enter_shape E c s : shape s (enter E c s).
Proof.
  destruct c as [sec glon glat npts lon lat x y | sec lon lat]; cbn [enter].
  - destruct (gctpc_ll2xy_init E sec glon glat wesn (mem s))
      as [[k|v] m1] eqn:H1.
    + destruct (decide (k = 0)) as [->|Hk].
      * destruct (gctpc_ll2xy E npts lon lat x y wesn m1)
          as [[r|v] m2] eqn:H2.
        -- eapply Straight, ll2ij_mapped; eassumption.
        -- eapply Recovered, ll2ij_map_raises; eassumption.
      * eapply Straight, ll2ij_init_fails; eassumption.
    + eapply Recovered, ll2ij_init_raises; eassumption.
  - destruct (gctpc_get_latlon E sec lon lat wesn (mem s))
      as [[k|v] m1] eqn:H1.
    + destruct (decide (k = 0)) as [->|Hk].
      * eapply Straight, sec3latlon_primary_done; eassumption.
      * destruct (get_latlon E sec lon lat wesn m1) as [[i|v] m2] eqn:H2.
        -- eapply Straight, sec3latlon_fallback_done; eassumption.
        -- eapply Recovered, sec3latlon_fallback_raises; eassumption.
    + eapply Recovered, sec3latlon_primary_raises; eassumption.
Qed.

(** ** Reading the log of a run *)

Lemma calls_calls_made cs : calls (calls_made cs) = cs.
Proof.
  unfold calls_made.
  induction cs as [|c cs IH]; cbn; [reflexivity | now rewrite IH].
Qed.

Lemma calls_app l l' : calls (l ++ l') = calls l ++ calls l'.
Proof.
  induction l as [|e l IH]; cbn; [reflexivity|].
  destruct e; cbn; now rewrite ?IH.
Qed.

Lemma orders_seen_app l l' : orders_seen (l ++ l') = orders_seen l ++ orders_seen l'.
Proof.
  induction l as [|e l IH]; cbn; [reflexivity|].
  destruct e; cbn; now rewrite ?IH.
Qed.

Lemma trampoline_seen_app l l' :
  trampoline_seen (l ++ l') = trampoline_seen l ++ trampoline_seen l'.
Proof.
  induction l as [|e l IH]; cbn; [reflexivity|].
  destruct e; cbn; now rewrite ?IH.
Qed.

Lemma orders_seen_calls_made cs :
  orders_seen (calls_made cs) = replicate (length cs) wesn.
Proof.
  unfold calls_made.
  induction cs as [|c cs IH]; cbn; [reflexivity | now rewrite IH].
Qed.

Lemma trampoline_seen_calls_made cs :
  trampoline_seen (calls_made cs) = replicate (length cs) true.
Proof.
  unfold calls_made.
  induction cs as [|c cs IH]; cbn; [reflexivity | now rewrite IH].
Qed.

Lemma fatal_raised_calls_made cs l :
  fatal_raised (calls_made cs ++ l) = fatal_raised l.
Proof.
  unfold calls_made.
  induction cs as [|c cs IH]; cbn; [reflexivity | exact IH].
Qed.

Lemma no_fatal_in_calls_made cs : fatal_raised (calls_made cs) = false.
Proof. rewrite <- (app_nil_r (calls_made cs)). apply fatal_raised_calls_made. Qed.

Lemma armed_returned s m : wf_state s → armed (returned s m) = false.
Proof.
  intros Hwf. unfold armed; cbn. apply bool_decide_eq_false_2.
  intros Hin. unfold wf_state in Hwf. rewrite Forall_forall in Hwf.
  specialize (Hwf _ Hin). lia.
Qed.

Lemma wf_returned s m : wf_state s → wf_state (returned s m).
Proof.
  unfold wf_state; cbn. intros Hwf.
  eapply Forall_impl; [exact Hwf|]. cbn; intros; lia.
Qed.

(** The [jmp_buf] itself is never cleared: after the call it still holds the
    context of the activation record that has returned. *)
Lemma fatal_err_left_behind E c s :
  fatal_err (final (enter E c s)) = Some (fresh s).
Proof. destruct (enter_shape E c s) as [? ? ? ? ->|? ? ? ? ->]; reflexivity. Qed.

Lemma length_session E cs s : length (session E cs s) = length cs.
Proof.
  revert s. induction cs as [|c cs IH]; intros s; cbn; [reflexivity|].
  now rewrite IH.
Qed.

(** What one call does to the trampoline, from any well-formed state. *)
Lemma enter_trampoline E c s :
  wf_state s →
  trampoline_seen (log (enter E c s)) ≠ []
  ∧ Forall (λ a, a = true) (trampoline_seen (log (enter E c s)))
  ∧ idle (final (enter E c s)) = true
  ∧ wf_state (final (enter E c s)).
Proof.
  intros Hwf.
  destruct (enter_shape E c s) as [i m c0 cs ->|v m c0 cs ->]; cbn [log final];
    unfold idle; rewrite (armed_returned s m Hwf);
    (split; [discriminate|]); (split; [|split; [reflexivity | now apply wf_returned]]).
  - change (Forall (λ a, a = true) (trampoline_seen (calls_made (c0 :: cs)))).
    rewrite trampoline_seen_calls_made. apply Forall_replicate. reflexivity.
  - change (Forall (λ a, a = true)
              (trampoline_seen (calls_made (c0 :: cs)
                                  ++ [EvLongjmp v; EvSetjmp (longjmp_value v)]))).
    rewrite trampoline_seen_app, trampoline_seen_calls_made.
    apply Forall_app. split; [apply Forall_replicate; reflexivity | apply Forall_nil].
    exact I.
Qed.

(** ** The claims *)




(** C2: when an engine call made by [ll2ij] or [sec3latlon] ends in a
    [longjmp] to [fatal_err], the entry point returns 9, and it does so at
    once: the jump is the last thing the engine does, [setjmp] hands back a
    non-zero value, and nothing else is called. *)
Theorem fatal_condition_returns_9 E c s :
  fatal_raised (log (enter E c s)) = true →
  result (enter E c s) = Done 9
  ∧ ∃ pre v,
      log (enter E c s) = pre ++ [EvLongjmp v; EvSetjmp (longjmp_value v)]
      ∧ fatal_raised pre = false
      ∧ longjmp_value v ≠ 0.
Proof.
  destruct (enter_shape E c s) as [i m c0 cs ->|v m c0 cs ->]; cbn [log result].
  - intros H. change (fatal_raised (calls_made (c0 :: cs)) = true) in H.
    rewrite no_fatal_in_calls_made in H. discriminate.
  - intros _. split; [reflexivity|].
    exists (EvAssign wesn :: EvSetjmp 0 :: calls_made (c0 :: cs)), v.
    split; [reflexivity|]. split.
    + apply (no_fatal_in_calls_made (c0 :: cs)).
    + pose proof (longjmp_value_nonzero v) as Hv. unfold nonzero in Hv.
      apply negb_true_iff, Z.eqb_neq in Hv. exact Hv.
Qed.

Lemma fatal_condition_returns_9_doomed :
  result (enter doomed (sec3latlon_with G_sec G_lon G_lat) (boot G_memory)) = Done 9
  ∧ ∃ pre v,
      log (enter doomed (sec3latlon_with G_sec G_lon G_lat) (boot G_memory))
        = pre ++ [EvLongjmp v; EvSetjmp (longjmp_value v)]
      ∧ fatal_raised pre = false
      ∧ longjmp_value v ≠ 0.
Proof.
  apply (fatal_condition_returns_9 doomed (sec3latlon_with G_sec G_lon G_lat)
           (boot G_memory)).
  reflexivity.
Defined.

(** C3: when [gctpc_ll2xy_init] comes back with a status [k] other than 0,
    [ll2ij] returns exactly [k] and [gctpc_ll2xy] is not called. *)
Theorem ll2ij_init_status_propagates
    E sec grid_lon grid_lat npts lon lat x y s k m1 :
  gctpc_ll2xy_init E sec grid_lon grid_lat wesn (mem s) = (Returns k, m1) →
  k ≠ 0 →
  let r := ll2ij E sec grid_lon grid_lat npts lon lat x y s in
  result r = Done k
  ∧ times_called sym_gctpc_ll2xy (log r) = 0%nat
  ∧ calls (log r) = [to_gctpc_ll2xy_init sec grid_lon grid_lat].
Proof.
  intros H Hk r. subst r.
  rewrite (ll2ij_init_fails E sec grid_lon grid_lat npts lon lat x y s k m1 H Hk).
  repeat split.
Qed.

Lemma ll2ij_init_status_7 :
  let r := ll2ij (answering (Returns 7) (Raises 1) (Returns 0) (Returns 0))
                 G_sec 48 56 1 64 72 80 88 (boot G_memory) in
  result r = Done 7
  ∧ times_called sym_gctpc_ll2xy (log r) = 0%nat
  ∧ calls (log r) = [to_gctpc_ll2xy_init G_sec 48 56].
Proof.
  apply (ll2ij_init_status_propagates
           (answering (Returns 7) (Raises 1) (Returns 0) (Returns 0))
           G_sec 48 56 1 64 72 80 88 (boot G_memory) 7 G_memory);
    [reflexivity | lia].
Defined.

(** C4: when the primary extractor [gctpc_get_latlon] comes back with status
    0, [sec3latlon] returns 0, the memory (so [*lon] and [*lat]) is as the
    primary left it, and the fallback [get_latlon] is not called. *)
Theorem sec3latlon_primary_suffices E sec lon lat s m1 :
  gctpc_get_latlon E sec lon lat wesn (mem s) = (Returns 0, m1) →
  let r := sec3latlon E sec lon lat s in
  result r = Done 0
  ∧ mem (final r) = m1
  ∧ deref_doubles (mem (final r)) lon = deref_doubles m1 lon
  ∧ deref_doubles (mem (final r)) lat = deref_doubles m1 lat
  ∧ times_called sym_get_latlon (log r) = 0%nat
  ∧ calls (log r) = [to_gctpc_get_latlon sec lon lat].
Proof.
  intros H r. subst r.
  rewrite (sec3latlon_primary_done E sec lon lat s m1 H).
  repeat split.
Qed.

Lemma sec3latlon_primary_suffices_on_G :
  let m1 := emit G_lat 88 [20.0%float] (emit G_lon 80 [10.0%float] G_memory) in
  let r := sec3latlon stub_primary_ok G_sec G_lon G_lat (boot G_memory) in
  result r = Done 0
  ∧ mem (final r) = m1
  ∧ deref_doubles (mem (final r)) G_lon = deref_doubles m1 G_lon
  ∧ deref_doubles (mem (final r)) G_lat = deref_doubles m1 G_lat
  ∧ times_called sym_get_latlon (log r) = 0%nat
  ∧ calls (log r) = [to_gctpc_get_latlon G_sec G_lon G_lat].
Proof.
  apply (sec3latlon_primary_suffices stub_primary_ok G_sec G_lon G_lat
           (boot G_memory)
           (emit G_lat 88 [20.0%float] (emit G_lon 80 [10.0%float] G_memory))).
  reflexivity.
Defined.

(** C5: when [gctpc_ll2xy_init] returns 0 and [gctpc_ll2xy] returns (no
    fatal error), [ll2ij] has called [gctpc_ll2xy] exactly once, with [npts],
    [lon], [lat], [x] and [y] as it received them, and returns the status of
    that call unchanged, zero or not; the memory is as that call left it. *)
Theorem ll2ij_returns_mapping_status
    E sec grid_lon grid_lat npts lon lat x y s m1 i m2 :
  gctpc_ll2xy_init E sec grid_lon grid_lat wesn (mem s) = (Returns 0, m1) →
  gctpc_ll2xy E npts lon lat x y wesn m1 = (Returns i, m2) →
  let r := ll2ij E sec grid_lon grid_lat npts lon lat x y s in
  result r = Done i
  ∧ mem (final r) = m2
  ∧ times_called sym_gctpc_ll2xy (log r) = 1%nat
  ∧ calls (log r) = [to_gctpc_ll2xy_init sec grid_lon grid_lat;
                     to_gctpc_ll2xy npts lon lat x y]
  ∧ fatal_raised (log r) = false.
Proof.
  intros H1 H2 r. subst r.
  rewrite (ll2ij_mapped E sec grid_lon grid_lat npts lon lat x y s m1 i m2 H1 H2).
  repeat split.
Qed.

Lemma ll2ij_returns_mapping_status_3 :
  let r := ll2ij (answering (Returns 0) (Returns 3) (Returns 0) (Returns 0))
                 G_sec 48 56 1 64 72 80 88 (boot G_memory) in
  result r = Done 3
  ∧ mem (final r) = G_memory
  ∧ times_called sym_gctpc_ll2xy (log r) = 1%nat
  ∧ calls (log r) = [to_gctpc_ll2xy_init G_sec 48 56;
                     to_gctpc_ll2xy 1 64 72 80 88]
  ∧ fatal_raised (log r) = false.
Proof.
  apply (ll2ij_returns_mapping_status
           (answering (Returns 0) (Returns 3) (Returns 0) (Returns 0))
           G_sec 48 56 1 64 72 80 88 (boot G_memory) G_memory 3 G_memory);
    reflexivity.
Defined.

(** C6: in every run of [ll2ij] and of [sec3latlon], whatever value
    [output_order] had before, the assignment [output_order = wesn] is the
    first thing that happens, the engine is entered at least once, and every
    engine call finds [output_order] equal to [wesn]. *)
Theorem orientation_set_before_engine E c s :
  let l := log (enter E c s) in
  head l = Some (EvAssign wesn)
  ∧ orders_seen l ≠ []
  ∧ Forall (λ o, o = wesn) (orders_seen l).
Proof.
  destruct (enter_shape E c s) as [i m c0 cs ->|v m c0 cs ->]; cbn [log];
    (split; [reflexivity|]); (split; [discriminate|]).
  - change (Forall (λ o, o = wesn) (orders_seen (calls_made (c0 :: cs)))).
    rewrite orders_seen_calls_made. apply Forall_replicate. reflexivity.
  - change (Forall (λ o, o = wesn)
              (orders_seen (calls_made (c0 :: cs)
                              ++ [EvLongjmp v; EvSetjmp (longjmp_value v)]))).
    rewrite orders_seen_app, orders_seen_calls_made.
    apply Forall_app. split; [apply Forall_replicate; reflexivity | apply Forall_nil].
    exact I.
Qed.

(** C7: the trampoline is armed while [fatal_err] holds the context of a live
    activation record, idle otherwise.  In a series of calls to [ll2ij] and
    [sec3latlon] that starts idle, every call starts idle, every engine call
    it makes finds the trampoline armed, and when it has returned, normally
    or with 9 after a fatal error, the trampoline is idle again. *)
Theorem trampoline_armed_only_inside_a_call E cs s :
  wf_state s →
  idle s = true →
  Forall (λ sr : state * run int,
            idle sr.1 = true
            ∧ trampoline_seen (log sr.2) ≠ []
            ∧ Forall (λ a, a = true) (trampoline_seen (log sr.2))
            ∧ idle (final sr.2) = true)
         (session E cs s).
Proof.
  revert s. induction cs as [|c cs IH]; intros s Hwf Hidle; cbn [session].
  - apply Forall_nil. exact I.
  - destruct (enter_trampoline E c s Hwf) as (Hne & Hall & Hidle' & Hwf').
    apply Forall_cons. split.
    + cbn. auto.
    + apply IH; assumption.
Qed.

Lemma trampoline_after_a_fatal_error :
  Forall (λ sr : state * run int,
            idle sr.1 = true
            ∧ trampoline_seen (log sr.2) ≠ []
            ∧ Forall (λ a, a = true) (trampoline_seen (log sr.2))
            ∧ idle (final sr.2) = true)
         (session doomed
                  [sec3latlon_with G_sec G_lon G_lat;
                   ll2ij_with G_sec 48 56 1 64 72 80 88]
                  (boot G_memory)).
Proof.
  apply (trampoline_armed_only_inside_a_call doomed
           [sec3latlon_with G_sec G_lon G_lat;
            ll2ij_with G_sec 48 56 1 64 72 80 88]
           (boot G_memory)).
  - apply Forall_nil. exact I.
  - reflexivity.
Defined.

(** C8: the scenario on grid [G].  The primary extractor returns 5, the
    fallback returns 0 and leaves the arrays [[10.0]] and [[20.0]] behind
    [*lon] and [*lat]: [sec3latlon] returns 0 and the caller finds
    [lon = [10.0]] and [lat = [20.0]]. *)
Theorem sec3latlon_scenario_G E sec lon lat s m1 m2 :
  gctpc_get_latlon E sec lon lat wesn (mem s) = (Returns 5, m1) →
  get_latlon E sec lon lat wesn m1 = (Returns 0, m2) →
  deref_doubles m2 lon = Some [10.0%float] →
  deref_doubles m2 lat = Some [20.0%float] →
  let r := sec3latlon E sec lon lat s in
  result r = Done 0
  ∧ deref_doubles (mem (final r)) lon = Some [10.0%float]
  ∧ deref_doubles (mem (final r)) lat = Some [20.0%float].
Proof.
  intros H1 H2 Hlon Hlat r. subst r.
  assert (Hk : (5 : int) ≠ 0) by discriminate.
  rewrite (sec3latlon_fallback_done E sec lon lat s 5 m1 0 m2 H1 Hk H2).
  cbn [result final mem returned]. auto.
Qed.

Lemma sec3latlon_scenario_G_stub :
  let r := sec3latlon stub_G G_sec G_lon G_lat (boot G_memory) in
  result r = Done 0
  ∧ deref_doubles (mem (final r)) G_lon = Some [10.0%float]
  ∧ deref_doubles (mem (final r)) G_lat = Some [20.0%float].
Proof.
  apply (sec3latlon_scenario_G stub_G G_sec G_lon G_lat (boot G_memory)
           (emit G_lon 64 [1.5%float] G_memory)
           (emit G_lat 88 [20.0%float]
              (emit G_lon 80 [10.0%float] (emit G_lon 64 [1.5%float] G_memory))));
    vm_compute; reflexivity.
Defined.

(** A fatal error on the first call of a process that had selected another
    orientation: the caller gets 9, the flag stays [wesn], and [fatal_err]
    keeps the context of the record that is gone. *)
Example doomed_run_from_boot :
  let r := enter doomed (ll2ij_with G_sec 48 56 1 64 72 80 88) (boot G_memory) in
  output_order (boot G_memory) = raw
  ∧ result r = Done 9
  ∧ output_order (final r) = wesn
  ∧ fatal_err (final r) = Some 0%nat
  ∧ stack (final r) = [].
Proof. repeat split. Qed.

(** C9: whichever way [ll2ij] or [sec3latlon] returns (with the engine's
    status, or with 9 after a fatal error), [output_order] is [wesn]
    afterwards, whatever it was before the call: the assignment comes first,
    [setjmp] second, and nothing puts the earlier value back. *)
Theorem orientation_left_wesn E c s :
  let r := enter E c s in
  output_order (final r) = wesn
  ∧ ∃ rest, log r = EvAssign wesn :: EvSetjmp 0 :: rest.
Proof.
  destruct (enter_shape E c s) as [i m c0 cs ->|v m c0 cs ->];
    cbn [log final result];
    (split; [reflexivity | eexists; reflexivity]).
Qed.

(** C10: 9 is not kept for the fatal path.  When the last engine function an
    entry point calls returns 9 as its ordinary status, the entry point
    returns 9 although no [longjmp] took place, and that is the very result
    the same call has on an engine that fails fatally. *)
Theorem status_9_not_reserved E c s :
  engine_answers_9 E c s →
  result (enter E c s) = Done 9
  ∧ fatal_raised (log (enter E c s)) = false
  ∧ fatal_raised (log (enter doomed c s)) = true
  ∧ result (enter doomed c s) = result (enter E c s).
Proof.
  intros H.
  destruct c as [sec glon glat npts lon lat x y | sec lon lat];
    cbn [enter engine_answers_9] in *.
  - rewrite (ll2ij_init_raises doomed sec glon glat npts lon lat x y s 1 (mem s))
      by reflexivity.
    destruct H as [[m1 H1] | (m1 & m2 & H1 & H2)].
    + assert (Hk : (9 : int) ≠ 0) by discriminate.
      rewrite (ll2ij_init_fails E sec glon glat npts lon lat x y s 9 m1 H1 Hk).
      repeat split.
    + rewrite (ll2ij_mapped E sec glon glat npts lon lat x y s m1 9 m2 H1 H2).
      repeat split.
  - rewrite (sec3latlon_primary_raises doomed sec lon lat s 1 (mem s))
      by reflexivity.
    destruct H as (k & m1 & m2 & H1 & Hk & H2).
    rewrite (sec3latlon_fallback_done E sec lon lat s k m1 9 m2 H1 Hk H2).
    repeat split.
Qed.

Lemma status_9_from_three_engines :
  let by_init := answering (Returns 9) (Returns 0) (Returns 0) (Returns 0) in
  let by_map := answering (Returns 0) (Returns 9) (Returns 0) (Returns 0) in
  let by_fallback := answering (Returns 0) (Returns 0) (Returns 5) (Returns 9) in
  let c := ll2ij_with G_sec 48 56 1 64 72 80 88 in
  let d := sec3latlon_with G_sec G_lon G_lat in
  let s := boot G_memory in
  (result (enter by_init c s) = Done 9
   ∧ fatal_raised (log (enter by_init c s)) = false
   ∧ fatal_raised (log (enter doomed c s)) = true
   ∧ result (enter doomed c s) = result (enter by_init c s))
  ∧ (result (enter by_map c s) = Done 9
     ∧ fatal_raised (log (enter by_map c s)) = false
     ∧ fatal_raised (log (enter doomed c s)) = true
     ∧ result (enter doomed c s) = result (enter by_map c s))
  ∧ (result (enter by_fallback d s) = Done 9
     ∧ fatal_raised (log (enter by_fallback d s)) = false
     ∧ fatal_raised (log (enter doomed d s)) = true
     ∧ result (enter doomed d s) = result (enter by_fallback d s)).
Proof.
  split; [|split].
  - apply (status_9_not_reserved
             (answering (Returns 9) (Returns 0) (Returns 0) (Returns 0))
             (ll2ij_with G_sec 48 56 1 64 72 80 88) (boot G_memory)).
    left. exists G_memory. reflexivity.
  - apply (status_9_not_reserved
             (answering (Returns 0) (Returns 9) (Returns 0) (Returns 0))
             (ll2ij_with G_sec 48 56 1 64 72 80 88) (boot G_memory)).
    right. exists G_memory, G_memory. split; reflexivity.
  - apply (status_9_not_reserved
             (answering (Returns 0) (Returns 0) (Returns 5) (Returns 9))
             (sec3latlon_with G_sec G_lon G_lat) (boot G_memory)).
    exists 5, G_memory, G_memory. split; [reflexivity|]. split; [lia | reflexivity].
Defined.

(** ** More about the two entry points *)

(** Every run of [ll2ij] is one of the four ways above. *)
Lemma ll2ij_ways E sec grid_lon grid_lat npts lon lat x y s :
  let init := to_gctpc_ll2xy_init sec grid_lon grid_lat in
  let map := to_gctpc_ll2xy npts lon lat x y in
  let r := ll2ij E sec grid_lon grid_lat npts lon lat x y s in
  (∃ v m1,
      invoke E init wesn (mem s) = (Raises v, m1)
      ∧ r = Run (Done 9) (returned s m1)
              (EvAssign wesn :: EvSetjmp 0 ::
               calls_made [init] ++ [EvLongjmp v; EvSetjmp (longjmp_value v)]))
  ∨ (∃ k m1,
      invoke E init wesn (mem s) = (Returns k, m1) ∧ k ≠ 0
      ∧ r = Run (Done k) (returned s m1)
              (EvAssign wesn :: EvSetjmp 0 :: calls_made [init]))
  ∨ (∃ m1 i m2,
      invoke E init wesn (mem s) = (Returns 0, m1)
      ∧ invoke E map wesn m1 = (Returns i, m2)
      ∧ r = Run (Done i) (returned s m2)
              (EvAssign wesn :: EvSetjmp 0 :: calls_made [init; map]))
  ∨ (∃ m1 v m2,
      invoke E init wesn (mem s) = (Returns 0, m1)
      ∧ invoke E map wesn m1 = (Raises v, m2)
      ∧ r = Run (Done 9) (returned s m2)
              (EvAssign wesn :: EvSetjmp 0 ::
               calls_made [init; map] ++ [EvLongjmp v; EvSetjmp (longjmp_value v)])).
Proof.
  cbn zeta. cbn [invoke].
  destruct (gctpc_ll2xy_init E sec grid_lon grid_lat wesn (mem s))
    as [[k|v] m1] eqn:H1.
  - destruct (decide (k = 0)) as [->|Hk].
    + destruct (gctpc_ll2xy E npts lon lat x y wesn m1) as [[i|v] m2] eqn:H2.
      * right; right; left. exists m1, i, m2.
        split; [reflexivity|]. split; [exact H2|].
        eapply ll2ij_mapped; eassumption.
      * right; right; right. exists m1, v, m2.
        split; [reflexivity|]. split; [exact H2|].
        eapply ll2ij_map_raises; eassumption.
    + right; left. exists k, m1. split; [reflexivity|]. split; [exact Hk|].
      eapply ll2ij_init_fails; eassumption.
  - left. exists v, m1. split; [reflexivity|].
    eapply ll2ij_init_raises; eassumption.
Qed.

(** Every run of [sec3latlon] is one of the four ways above. *)
Lemma sec3latlon_ways E sec lon lat s :
  let primary := to_gctpc_get_latlon sec lon lat in
  let fallback := to_get_latlon sec lon lat in
  let r := sec3latlon E sec lon lat s in
  (∃ v m1,
      invoke E primary wesn (mem s) = (Raises v, m1)
      ∧ r = Run (Done 9) (returned s m1)
              (EvAssign wesn :: EvSetjmp 0 ::
               calls_made [primary] ++ [EvLongjmp v; EvSetjmp (longjmp_value v)]))
  ∨ (∃ m1,
      invoke E primary wesn (mem s) = (Returns 0, m1)
      ∧ r = Run (Done 0) (returned s m1)
              (EvAssign wesn :: EvSetjmp 0 :: calls_made [primary]))
  ∨ (∃ k m1 i m2,
      invoke E primary wesn (mem s) = (Returns k, m1) ∧ k ≠ 0
      ∧ invoke E fallback wesn m1 = (Returns i, m2)
      ∧ r = Run (Done i) (returned s m2)
              (EvAssign wesn :: EvSetjmp 0 :: calls_made [primary; fallback]))
  ∨ (∃ k m1 v m2,
      invoke E primary wesn (mem s) = (Returns k, m1) ∧ k ≠ 0
      ∧ invoke E fallback wesn m1 = (Raises v, m2)
      ∧ r = Run (Done 9) (returned s m2)
              (EvAssign wesn :: EvSetjmp 0 ::
               calls_made [primary; fallback]
                 ++ [EvLongjmp v; EvSetjmp (longjmp_value v)])).
Proof.
  cbn zeta. cbn [invoke].
  destruct (gctpc_get_latlon E sec lon lat wesn (mem s)) as [[k|v] m1] eqn:H1.
  - destruct (decide (k = 0)) as [->|Hk].
    + right; left. exists m1. split; [reflexivity|].
      eapply sec3latlon_primary_done; eassumption.
    + destruct (get_latlon E sec lon lat wesn m1) as [[i|v] m2] eqn:H2.
      * right; right; left. exists k, m1, i, m2.
        split; [reflexivity|]. split; [exact Hk|]. split; [exact H2|].
        eapply sec3latlon_fallback_done; eassumption.
      * right; right; right. exists k, m1, v, m2.
        split; [reflexivity|]. split; [exact Hk|]. split; [exact H2|].
        eapply sec3latlon_fallback_raises; eassumption.
  - left. exists v, m1. split; [reflexivity|].
    eapply sec3latlon_primary_raises; eassumption.
Qed.

(** X1: no fatal error gets past an entry point.  From any start state, a
    stale [fatal_err] included, a call to [ll2ij] or [sec3latlon] comes back
    with a status: no [longjmp] is left unwinding, and none goes through a
    [jmp_buf] that is not a live target. *)
Theorem entry_point_always_returns E c s :
  ∃ i, result (enter E c s) = Done i.
Proof.
  destruct (enter_shape E c s) as [i m c0 cs ->|v m c0 cs ->];
    eexists; reflexivity.
Qed.

(** X2: [ll2ij] returns 0 exactly when [gctpc_ll2xy_init] returned 0 and
    [gctpc_ll2xy], run on the memory the initializer left, returned 0. *)
Theorem ll2ij_zero_iff E sec grid_lon grid_lat npts lon lat x y s :
  result (ll2ij E sec grid_lon grid_lat npts lon lat x y s) = Done 0
  ↔ ∃ m1 m2,
      gctpc_ll2xy_init E sec grid_lon grid_lat wesn (mem s) = (Returns 0, m1)
      ∧ gctpc_ll2xy E npts lon lat x y wesn m1 = (Returns 0, m2).
Proof.
  split.
  - destruct (ll2ij_ways E sec grid_lon grid_lat npts lon lat x y s)
      as [(v & m1 & H1 & ->) | [(k & m1 & H1 & Hk & ->)
         | [(m1 & i & m2 & H1 & H2 & ->) | (m1 & v & m2 & H1 & H2 & ->)]]];
      cbn [result invoke] in *; intros Hr.
    + discriminate.
    + injection Hr as ->. contradiction.
    + injection Hr as ->. exists m1, m2. split; assumption.
    + discriminate.
  - intros (m1 & m2 & H1 & H2).
    now rewrite (ll2ij_mapped E sec grid_lon grid_lat npts lon lat x y s m1 0 m2 H1 H2).
Qed.

Lemma ll2ij_zero_on_a_willing_engine :
  result (ll2ij (answering (Returns 0) (Returns 0) (Raises 1) (Raises 1))
                G_sec 48 56 1 64 72 80 88 (boot G_memory)) = Done 0.
Proof.
  apply (ll2ij_zero_iff (answering (Returns 0) (Returns 0) (Raises 1) (Raises 1))
           G_sec 48 56 1 64 72 80 88 (boot G_memory)).
  exists G_memory, G_memory. split; reflexivity.
Defined.

(** X3: [sec3latlon] returns 0 exactly when the primary extractor returned
    0, or the primary returned a non-zero status and the fallback, run on the
    memory the primary left, returned 0. *)
Theorem sec3latlon_zero_iff E sec lon lat s :
  result (sec3latlon E sec lon lat s) = Done 0
  ↔ (∃ m1, gctpc_get_latlon E sec lon lat wesn (mem s) = (Returns 0, m1))
    ∨ (∃ k m1 m2,
         gctpc_get_latlon E sec lon lat wesn (mem s) = (Returns k, m1)
         ∧ k ≠ 0
         ∧ get_latlon E sec lon lat wesn m1 = (Returns 0, m2)).
Proof.
  split.
  - destruct (sec3latlon_ways E sec lon lat s)
      as [(v & m1 & H1 & ->) | [(m1 & H1 & ->)
         | [(k & m1 & i & m2 & H1 & Hk & H2 & ->)
           | (k & m1 & v & m2 & H1 & Hk & H2 & ->)]]];
      cbn [result invoke] in *; intros Hr.
    + discriminate.
    + left. exists m1. exact H1.
    + injection Hr as ->. right. exists k, m1, m2. auto.
    + discriminate.
  - intros [(m1 & H1) | (k & m1 & m2 & H1 & Hk & H2)].
    + now rewrite (sec3latlon_primary_done E sec lon lat s m1 H1).
    + now rewrite (sec3latlon_fallback_done E sec lon lat s k m1 0 m2 H1 Hk H2).
Qed.

Lemma sec3latlon_zero_on_G :
  result (sec3latlon stub_G G_sec G_lon G_lat (boot G_memory)) = Done 0.
Proof.
  apply (sec3latlon_zero_iff stub_G G_sec G_lon G_lat (boot G_memory)).
  right. exists 5, (emit G_lon 64 [1.5%float] G_memory).
  eexists. split; [reflexivity|]. split; [lia | reflexivity].
Defined.

(** X4: whatever the engine does, [ll2ij] enters it once or twice: first
    [gctpc_ll2xy_init] with [sec], [grid_lon] and [grid_lat] as received,
    then at most one [gctpc_ll2xy] with [npts], [lon], [lat], [x], [y] as
    received.  It never calls either extractor and never calls the
    initializer a second time. *)
Theorem ll2ij_engine_calls E sec grid_lon grid_lat npts lon lat x y s :
  let l := log (ll2ij E sec grid_lon grid_lat npts lon lat x y s) in
  (calls l = [to_gctpc_ll2xy_init sec grid_lon grid_lat]
   ∨ calls l = [to_gctpc_ll2xy_init sec grid_lon grid_lat;
                to_gctpc_ll2xy npts lon lat x y])
  ∧ times_called sym_gctpc_ll2xy_init l = 1%nat
  ∧ times_called sym_gctpc_get_latlon l = 0%nat
  ∧ times_called sym_get_latlon l = 0%nat.
Proof.
  destruct (ll2ij_ways E sec grid_lon grid_lat npts lon lat x y s)
    as [(v & m1 & H1 & ->) | [(k & m1 & H1 & Hk & ->)
       | [(m1 & i & m2 & H1 & H2 & ->) | (m1 & v & m2 & H1 & H2 & ->)]]];
    cbn [log]; (split; [|repeat split]);
    solve [left; reflexivity | right; reflexivity].
Qed.

(** X5: whatever the engine does, [sec3latlon] enters it once or twice:
    first [gctpc_get_latlon], then at most one [get_latlon], both with [sec],
    [lon] and [lat] as received.  It never calls the projection functions
    and never calls the primary extractor a second time. *)
Theorem sec3latlon_engine_calls E sec lon lat s :
  let l := log (sec3latlon E sec lon lat s) in
  (calls l = [to_gctpc_get_latlon sec lon lat]
   ∨ calls l = [to_gctpc_get_latlon sec lon lat; to_get_latlon sec lon lat])
  ∧ times_called sym_gctpc_get_latlon l = 1%nat
  ∧ times_called sym_gctpc_ll2xy_init l = 0%nat
  ∧ times_called sym_gctpc_ll2xy l = 0%nat.
Proof.
  destruct (sec3latlon_ways E sec lon lat s)
    as [(v & m1 & H1 & ->) | [(m1 & H1 & ->)
       | [(k & m1 & i & m2 & H1 & Hk & H2 & ->)
         | (k & m1 & v & m2 & H1 & Hk & H2 & ->)]]];
    cbn [log]; (split; [|repeat split]);
    solve [left; reflexivity | right; reflexivity].
Qed.

(** X6: the bridge writes nothing through the pointers it is given.  When
    the engine functions leave the memory as they found it, so does a call
    to [ll2ij] or [sec3latlon], whatever status it returns. *)
Theorem bridge_writes_nothing E c s :
  leaves_memory E → mem (final (enter E c s)) = mem s.
Proof.
  intros Hq.
  destruct c as [sec glon glat npts lon lat x y | sec lon lat]; cbn [enter].
  - destruct (ll2ij_ways E sec glon glat npts lon lat x y s)
      as [(v & m1 & H1 & ->) | [(k & m1 & H1 & Hk & ->)
         | [(m1 & i & m2 & H1 & H2 & ->) | (m1 & v & m2 & H1 & H2 & ->)]]];
      cbn [final returned mem];
      pose proof (Hq (to_gctpc_ll2xy_init sec glon glat) wesn (mem s)) as Q1;
      rewrite H1 in Q1; cbn in Q1; subst m1; try reflexivity;
      pose proof (Hq (to_gctpc_ll2xy npts lon lat x y) wesn (mem s)) as Q2;
      rewrite H2 in Q2; exact Q2.
  - destruct (sec3latlon_ways E sec lon lat s)
      as [(v & m1 & H1 & ->) | [(m1 & H1 & ->)
         | [(k & m1 & i & m2 & H1 & Hk & H2 & ->)
           | (k & m1 & v & m2 & H1 & Hk & H2 & ->)]]];
      cbn [final returned mem];
      pose proof (Hq (to_gctpc_get_latlon sec lon lat) wesn (mem s)) as Q1;
      rewrite H1 in Q1; cbn in Q1; subst m1; try reflexivity;
      pose proof (Hq (to_get_latlon sec lon lat) wesn (mem s)) as Q2;
      rewrite H2 in Q2; exact Q2.
Qed.

Lemma bridge_writes_nothing_on_G :
  mem (final (enter (answering (Returns 0) (Returns 4) (Returns 2) (Raises 0))
                    (sec3latlon_with G_sec G_lon G_lat) (boot G_memory)))
  = mem (boot G_memory).
Proof.
  apply (bridge_writes_nothing
           (answering (Returns 0) (Returns 4) (Returns 2) (Raises 0))
           (sec3latlon_with G_sec G_lon G_lat) (boot G_memory)).
  intros [? ? ?|? ? ? ? ?|? ? ?|? ? ?] o m; reflexivity.
Defined.

(** X7: a fatal error in [gctpc_ll2xy] is answered with 9 and nothing is
    rolled back: the memory, the arrays behind [x] and [y] included, is as
    the engine had left it when it jumped. *)
Theorem ll2ij_fatal_keeps_engine_memory
    E sec grid_lon grid_lat npts lon lat x y s m1 v m2 :
  gctpc_ll2xy_init E sec grid_lon grid_lat wesn (mem s) = (Returns 0, m1) →
  gctpc_ll2xy E npts lon lat x y wesn m1 = (Raises v, m2) →
  let r := ll2ij E sec grid_lon grid_lat npts lon lat x y s in
  result r = Done 9
  ∧ mem (final r) = m2
  ∧ load_doubles (mem (final r)) x = load_doubles m2 x
  ∧ load_doubles (mem (final r)) y = load_doubles m2 y.
Proof.
  intros H1 H2 r. subst r.
  rewrite (ll2ij_map_raises E sec grid_lon grid_lat npts lon lat x y s m1 v m2 H1 H2).
  repeat split.
Qed.

Lemma ll2ij_fatal_in_the_mapping :
  let m2 := <[80 := Doubles [0.5%float]]> G_points in
  let r := ll2ij dies_mapping G_sec 48 56 1 64 72 80 88 (boot G_points) in
  (result r = Done 9
   ∧ mem (final r) = m2
   ∧ load_doubles (mem (final r)) 80 = load_doubles m2 80
   ∧ load_doubles (mem (final r)) 88 = load_doubles m2 88)
  ∧ load_doubles (mem (boot G_points)) 80 = Some [0.0%float]
  ∧ load_doubles (mem (final r)) 80 = Some [0.5%float]
  ∧ load_doubles (mem (final r)) 88 = Some [0.0%float].
Proof.
  split.
  - apply (ll2ij_fatal_keeps_engine_memory dies_mapping
             G_sec 48 56 1 64 72 80 88 (boot G_points) G_points 1
             (<[80 := Doubles [0.5%float]]> G_points));
      reflexivity.
  - repeat split; vm_compute; reflexivity.
Defined.

(** X8: a fatal error in the fallback extractor, entered after the primary
    gave a non-zero status, is answered with 9, and the caller's [*lon] and
    [*lat] are whatever the two extractors had made of them by then. *)
Theorem sec3latlon_fatal_keeps_engine_memory E sec lon lat s k m1 v m2 :
  gctpc_get_latlon E sec lon lat wesn (mem s) = (Returns k, m1) →
  k ≠ 0 →
  get_latlon E sec lon lat wesn m1 = (Raises v, m2) →
  let r := sec3latlon E sec lon lat s in
  result r = Done 9
  ∧ mem (final r) = m2
  ∧ deref_doubles (mem (final r)) lon = deref_doubles m2 lon
  ∧ deref_doubles (mem (final r)) lat = deref_doubles m2 lat.
Proof.
  intros H1 Hk H2 r. subst r.
  rewrite (sec3latlon_fallback_raises E sec lon lat s k m1 v m2 H1 Hk H2).
  repeat split.
Qed.

Lemma sec3latlon_fatal_after_a_partial_primary :
  let m1 := emit G_lon 64 [1.5%float] G_memory in
  let r := sec3latlon gives_up_late G_sec G_lon G_lat (boot G_memory) in
  result r = Done 9
  ∧ mem (final r) = m1
  ∧ deref_doubles (mem (final r)) G_lon = deref_doubles m1 G_lon
  ∧ deref_doubles (mem (final r)) G_lat = deref_doubles m1 G_lat.
Proof.
  apply (sec3latlon_fatal_keeps_engine_memory gives_up_late G_sec G_lon G_lat
           (boot G_memory) 5 (emit G_lon 64 [1.5%float] G_memory) 1
           (emit G_lon 64 [1.5%float] G_memory));
    [reflexivity | lia | reflexivity].
Defined.

(** X9: what a call does depends on the state it starts from only through
    the memory.  The earlier value of [output_order] and whatever earlier
    calls left in [fatal_err] change neither the status, nor the engine
    calls made, nor the memory afterwards. *)
Theorem enter_depends_on_memory_only E c s s' :
  mem s = mem s' →
  result (enter E c s) = result (enter E c s')
  ∧ log (enter E c s) = log (enter E c s')
  ∧ mem (final (enter E c s)) = mem (final (enter E c s')).
Proof.
  intros Hm.
  destruct c as [sec glon glat npts lon lat x y | sec lon lat]; cbn [enter].
  - destruct (ll2ij_ways E sec glon glat npts lon lat x y s)
      as [(v & m1 & H1 & ->) | [(k & m1 & H1 & Hk & ->)
         | [(m1 & i & m2 & H1 & H2 & ->) | (m1 & v & m2 & H1 & H2 & ->)]]];
      cbn [invoke] in *; rewrite Hm in H1.
    + now rewrite (ll2ij_init_raises E sec glon glat npts lon lat x y s' v m1 H1).
    + now rewrite (ll2ij_init_fails E sec glon glat npts lon lat x y s' k m1 H1 Hk).
    + now rewrite (ll2ij_mapped E sec glon glat npts lon lat x y s' m1 i m2 H1 H2).
    + now rewrite (ll2ij_map_raises E sec glon glat npts lon lat x y s' m1 v m2 H1 H2).
  - destruct (sec3latlon_ways E sec lon lat s)
      as [(v & m1 & H1 & ->) | [(m1 & H1 & ->)
         | [(k & m1 & i & m2 & H1 & Hk & H2 & ->)
           | (k & m1 & v & m2 & H1 & Hk & H2 & ->)]]];
      cbn [invoke] in *; rewrite Hm in H1.
    + now rewrite (sec3latlon_primary_raises E sec lon lat s' v m1 H1).
    + now rewrite (sec3latlon_primary_done E sec lon lat s' m1 H1).
    + now rewrite (sec3latlon_fallback_done E sec lon lat s' k m1 i m2 H1 Hk H2).
    + now rewrite (sec3latlon_fallback_raises E sec lon lat s' k m1 v m2 H1 Hk H2).
Qed.

Lemma enter_the_same_later :
  result (enter stub_G (sec3latlon_with G_sec G_lon G_lat) (boot G_memory))
  = result (enter stub_G (sec3latlon_with G_sec G_lon G_lat) (later G_memory))
  ∧ log (enter stub_G (sec3latlon_with G_sec G_lon G_lat) (boot G_memory))
    = log (enter stub_G (sec3latlon_with G_sec G_lon G_lat) (later G_memory))
  ∧ mem (final (enter stub_G (sec3latlon_with G_sec G_lon G_lat) (boot G_memory)))
    = mem (final (enter stub_G (sec3latlon_with G_sec G_lon G_lat) (later G_memory))).
Proof.
  apply (enter_depends_on_memory_only stub_G
           (sec3latlon_with G_sec G_lon G_lat) (boot G_memory) (later G_memory)).
  reflexivity.
Defined.

(** X10: neither entry point clears [fatal_err] before it returns.  After
    the call the [jmp_buf] holds the context of the activation record of that
    call, which is gone; an engine function entered from there that hits a
    fatal error jumps through a dead [jmp_buf]. *)
Theorem fatal_err_dangles_after_return E c s c' v m :
  wf_state s →
  invoke E c' (output_order (final (enter E c s))) (mem (final (enter E c s)))
    = (Raises v, m) →
  fatal_err (final (enter E c s)) = Some (fresh s)
  ∧ (fresh s ∉ stack (final (enter E c s)))
  ∧ result (call E c' (final (enter E c s))) = Undefined.
Proof.
  intros Hwf.
  assert (Hn : fresh s ∉ stack s).
  { intros Hin. unfold wf_state in Hwf. rewrite Forall_forall in Hwf.
    specialize (Hwf _ Hin). lia. }
  destruct (enter_shape E c s) as [i m0 c0 cs ->|w m0 c0 cs ->];
    cbn [final]; intros H;
    (split; [reflexivity|]); (split; [exact Hn|]);
    unfold call; rewrite H; cbn [fatal_err returned stack];
    now rewrite (bool_decide_eq_false_2 _ Hn).
Qed.

Lemma fatal_err_dangles_after_G :
  let r := enter doomed (sec3latlon_with G_sec G_lon G_lat) (boot G_memory) in
  fatal_err (final r) = Some (fresh (boot G_memory))
  ∧ (fresh (boot G_memory) ∉ stack (final r))
  ∧ result (call doomed (to_get_latlon G_sec G_lon G_lat) (final r)) = Undefined.
Proof.
  apply (fatal_err_dangles_after_return doomed
           (sec3latlon_with G_sec G_lon G_lat) (boot G_memory)
           (to_get_latlon G_sec G_lon G_lat) 1 G_memory);
    [apply Forall_nil; exact I | reflexivity].
Defined.

(** X11: a 9 from an entry point has one of two origins and no other: an
    engine call ended in a [longjmp], or the last engine function called
    returned 9 as its ordinary status. *)
Theorem status_9_origins E c s :
  result (enter E c s) = Done 9
  ↔ fatal_raised (log (enter E c s)) = true ∨ engine_answers_9 E c s.
Proof.
  destruct c as [sec glon glat npts lon lat x y | sec lon lat];
    cbn [enter engine_answers_9].
  - destruct (ll2ij_ways E sec glon glat npts lon lat x y s)
      as [(v & m1 & H1 & ->) | [(k & m1 & H1 & Hk & ->)
         | [(m1 & i & m2 & H1 & H2 & ->) | (m1 & v & m2 & H1 & H2 & ->)]]];
      cbn [invoke result log] in *.
    + split; [intros _; left; reflexivity | reflexivity].
    + split.
      * intros Hr. injection Hr as ->. right. left. exists m1. exact H1.
      * intros [Hf | [(m1' & H1') | (m1' & m2' & H1' & H2')]].
        -- discriminate Hf.
        -- rewrite H1 in H1'. injection H1' as -> _. reflexivity.
        -- rewrite H1 in H1'. injection H1' as -> _. contradiction.
    + split.
      * intros Hr. injection Hr as ->. right. right. exists m1, m2. auto.
      * intros [Hf | [(m1' & H1') | (m1' & m2' & H1' & H2')]].
        -- discriminate Hf.
        -- rewrite H1 in H1'. discriminate H1'.
        -- rewrite H1 in H1'. injection H1' as <-.
           rewrite H2 in H2'. injection H2' as -> _. reflexivity.
    + split; [intros _; left; reflexivity | reflexivity].
  - destruct (sec3latlon_ways E sec lon lat s)
      as [(v & m1 & H1 & ->) | [(m1 & H1 & ->)
         | [(k & m1 & i & m2 & H1 & Hk & H2 & ->)
           | (k & m1 & v & m2 & H1 & Hk & H2 & ->)]]];
      cbn [invoke result log] in *.
    + split; [intros _; left; reflexivity | reflexivity].
    + split; [discriminate |].
      intros [Hf | (k' & m1' & m2' & H1' & Hk' & H2')].
      * discriminate Hf.
      * rewrite H1 in H1'. injection H1' as <- _. contradiction.
    + split.
      * intros Hr. injection Hr as ->. right. exists k, m1, m2. auto.
      * intros [Hf | (k' & m1' & m2' & H1' & Hk' & H2')].
        -- discriminate Hf.
        -- rewrite H1 in H1'. injection H1' as _ <-.
           rewrite H2 in H2'. injection H2' as -> _. reflexivity.
    + split; [intros _; left; reflexivity | reflexivity].
Qed.

Lemma status_9_origin_of_a_plain_9 :
  fatal_raised (log (enter (answering (Returns 9) (Returns 0) (Returns 0) (Returns 0))
                           (ll2ij_with G_sec 48 56 1 64 72 80 88) (boot G_memory)))
    = true
  ∨ engine_answers_9 (answering (Returns 9) (Returns 0) (Returns 0) (Returns 0))
                     (ll2ij_with G_sec 48 56 1 64 72 80 88) (boot G_memory).
Proof.
  apply (status_9_origins (answering (Returns 9) (Returns 0) (Returns 0) (Returns 0))
           (ll2ij_with G_sec 48 56 1 64 72 80 88) (boot G_memory)).
  reflexivity.
Defined.
